(** * navi-website: the documentation renderer of [src/App.js]

    [App.js] is a React component that wires a documentation provider, a
    busy indicator, a not-found boundary and two code renderers together.
    This development embeds the JavaScript of that file: the two lookup
    tables, the [Demoboard] renderer (active file, extension, language,
    grammar, call of the highlighter), the inline [code] renderer and the
    element tree [App] returns.

    The embedding is shallow.  JavaScript values are an inductive type,
    objects are association lists in insertion order, property reads go
    through the prototype chain, an expression that can throw returns a
    [completion], and the external libraries (Prism, the engine's
    built-ins) are an interface, [Host]. *)

From Stdlib Require Import String Ascii List Bool NArith Lia Permutation.
Import ListNotations.

Local Open Scope string_scope.
Local Open Scope list_scope.

(** ** JavaScript values, objects and completions *)

Module JS.

(** The values this program touches.  [Inherited k] is the value found
    under the name [k] on [Object.prototype] (a built-in function, or
    [Object.prototype] itself for [__proto__]).  [Obj n] is a reference to
    an object the program never looks into: a route, a style object, a
    grammar definition. *)
Inductive value : Type :=
| Undefined
| Null
| Bool (b : bool)
| Str (s : string)
| Inherited (name : string)
| Obj (ref : nat).

(** An object with prototype [Object.prototype]: its own properties, in
    the order in which they were created. *)
Definition object : Type := list (string * value).

(** What can be thrown: a [TypeError] the engine raises itself (its
    message is the engine's own wording and is not modelled), a
    [TypeError] a library raises with a message, or any value. *)
Inductive exn : Type :=
| NativeTypeError
| TypeError (message : string)
| Thrown (v : value).

Inductive completion (A : Type) : Type :=
| Normal (a : A)
| Throw (e : exn).
Arguments Normal {A} a.
Arguments Throw {A} e.

Definition bind {A B : Type} (c : completion A) (k : A -> completion B)
  : completion B :=
  match c with
  | Normal a => k a
  | Throw e => Throw e
  end.

(** The property names every ordinary object inherits from
    [Object.prototype]. *)
Definition Object_prototype_names : list string :=
  [ "constructor"; "hasOwnProperty"; "isPrototypeOf"; "propertyIsEnumerable";
    "toLocaleString"; "toString"; "valueOf"; "__proto__";
    "__defineGetter__"; "__defineSetter__";
    "__lookupGetter__"; "__lookupSetter__" ].

Definition inherited_name (k : string) : bool :=
  existsb (String.eqb k) Object_prototype_names.

Fixpoint own_property (o : object) (k : string) : option value :=
  match o with
  | [] => None
  | (k', v) :: rest => if String.eqb k' k then Some v else own_property rest k
  end.

(** [o[k]]: the own property when there is one, else what the prototype
    has under that name, else [undefined]. *)
Definition get (o : object) (k : string) : value :=
  match own_property o k with
  | Some v => v
  | None => if inherited_name k then Inherited k else Undefined
  end.

(** *** The order of [Object.keys] *)

Definition digit_of (c : ascii) : option N :=
  let n := N_of_ascii c in
  if ((48 <=? n) && (n <=? 57))%N then Some (n - 48)%N else None.

Fixpoint digits_value (acc : N) (s : string) : option N :=
  match s with
  | EmptyString => Some acc
  | String c rest =>
      match digit_of c with
      | Some d => digits_value (10 * acc + d)%N rest
      | None => None
      end
  end.

(** An array index is the canonical decimal form of an integer below
    2^32 - 1: digits only, no leading zero. *)
Definition array_index (s : string) : option N :=
  match s with
  | EmptyString => None
  | String c rest =>
      if (Ascii.eqb c "0" && negb (String.eqb rest ""))%bool then None
      else match digits_value 0 s with
           | Some n => if (n <? 2 ^ 32 - 1)%N then Some n else None
           | None => None
           end
  end.

Definition is_array_index (s : string) : bool :=
  match array_index s with Some _ => true | None => false end.

Fixpoint insert_index (k : N * string) (l : list (N * string))
  : list (N * string) :=
  match l with
  | [] => [k]
  | h :: t => if (fst k <=? fst h)%N then k :: l else h :: insert_index k t
  end.

Definition sort_indices (l : list (N * string)) : list (N * string) :=
  fold_right insert_index [] l.

Definition index_keys (o : object) : list (N * string) :=
  flat_map (fun kv => match array_index (fst kv) with
                      | Some n => [(n, fst kv)]
                      | None => []
                      end) o.

Definition name_keys (o : object) : list string :=
  filter (fun k => negb (is_array_index k)) (map fst o).

(** [Object.keys(o)]: the array indices in ascending numeric order, then
    the other names in creation order. *)
Definition Object_keys (o : object) : list string :=
  map snd (sort_indices (index_keys o)) ++ name_keys o.

(** [a[0]] on an array of strings. *)
Definition index0 (a : list string) : value :=
  match a with
  | [] => Undefined
  | x :: _ => Str x
  end.

(** *** Strings *)

(** [s.split(sep)] for a one-character separator. *)
Fixpoint split_on (sep : ascii) (s : string) : list string :=
  match s with
  | EmptyString => [EmptyString]
  | String c rest =>
      if Ascii.eqb c sep then EmptyString :: split_on sep rest
      else match split_on sep rest with
           | [] => [String c EmptyString]
           | seg :: segs => String c seg :: segs
           end
  end.

(** [v.split(sep)]: only a string has the method; reading it from
    [undefined] or [null], or calling what the other values have under
    that name, is a [TypeError]. *)
Definition String_split (v : value) (sep : ascii) : completion (list string) :=
  match v with
  | Str s => Normal (split_on sep s)
  | _ => Throw NativeTypeError
  end.

(** [!!v] *)
Definition to_boolean (v : value) : bool :=
  match v with
  | Undefined | Null => false
  | Bool b => b
  | Str s => negb (String.eqb s "")
  | Inherited _ | Obj _ => true
  end.

(** [a || b] where [a] is an optional string: [None] is [undefined]. *)
Definition or_else (a : option string) (b : value) : value :=
  match a with
  | Some s => if to_boolean (Str s) then Str s else b
  | None => b
  end.

End JS.
Import JS.

Notation "x <- c ;; k" := (bind c (fun x => k))
  (at level 61, c at next level, right associativity).

(** ** What the component gets from outside

    [Prism.highlight] and [Prism.languages] come from the highlighting
    library; the text an engine prints for a built-in function is left to
    the implementation by the language standard. *)

Class Host : Type := {
  Prism_highlight : value -> value -> value -> completion value;
  Prism_languages : object;
  native_source : string -> string
}.

(** ** Element trees *)

Module DemoboardProps.
Record t : Type := {
  editorPathname : option string;
  id : value;
  style : value;
  sources : object
}.
End DemoboardProps.

Module CodeProps.
Record t : Type := {
  highlightedSource : value;
  language : value;
  id : value;
  style : value
}.
End CodeProps.

(** What a JSX expression evaluates to: an element with its properties and
    children, or a text child.  A property holds a plain value, the
    [{__html: v}] object of [dangerouslySetInnerHTML], a render function,
    or the component table handed to [DocProvider]. *)
#[warnings="-register-all"]
Inductive node : Type :=
| Text (s : string)
| Element (type : string) (props : list (string * attr)) (children : list node)
with attr : Type :=
| Val (v : value)
| InnerHTML (v : value)
| Render (f : unit -> node)
| Components (Demoboard : DemoboardProps.t -> completion node)
             (code : CodeProps.t -> node).

Definition props_of (n : node) : list (string * attr) :=
  match n with
  | Element _ ps _ => ps
  | Text _ => []
  end.

Definition children_of (n : node) : list node :=
  match n with
  | Element _ _ cs => cs
  | Text _ => []
  end.

Definition type_of (n : node) : string :=
  match n with
  | Element ty _ _ => ty
  | Text _ => "#text"
  end.

Fixpoint prop (ps : list (string * attr)) (k : string) : option attr :=
  match ps with
  | [] => None
  | (k', a) :: rest => if String.eqb k' k then Some a else prop rest k
  end.

Definition child (n : node) (ty : string) : option node :=
  find (fun c => String.eqb (type_of c) ty) (children_of n).

(** The markup injected somewhere below [n], searching depth first along
    first children: both renderers wrap one [code] element. *)
Fixpoint injected_markup (fuel : nat) (n : node) : option value :=
  match prop (props_of n) "dangerouslySetInnerHTML" with
  | Some (InnerHTML v) => Some v
  | _ =>
      match fuel, children_of n with
      | S fuel', c :: _ => injected_markup fuel' c
      | _, _ => None
      end
  end.

(** The [className] of the [pre] gutter below [n]. *)
Fixpoint pre_className (fuel : nat) (n : node) : option value :=
  match prop (props_of n) "Component", prop (props_of n) "className" with
  | Some (Val (Str "pre")), Some (Val c) => Some c
  | _, _ =>
      match fuel, children_of n with
      | S fuel', c :: _ => pre_className fuel' c
      | _, _ => None
      end
  end.

(** The [pre] gutter below [n]: the subtree the style sheet addresses. *)
Fixpoint pre_gutter (fuel : nat) (n : node) : option node :=
  match prop (props_of n) "Component" with
  | Some (Val (Str "pre")) => Some n
  | _ =>
      match fuel, children_of n with
      | S fuel', c :: _ => pre_gutter fuel' c
      | _, _ => None
      end
  end.

(** ** [src/App.js] *)

Definition languages : object :=
  [ ("jsx", Str "jsx");
    ("js", Str "jsx");
    ("html", Str "markup");
    ("css", Str "css") ].

Definition grammars : object :=
  [ ("jsx", Str "javascript");
    ("html", Str "html");
    ("css", Str "css") ].

Section App.

Context {H : Host}.

(** String conversion, as [+] and a computed property name apply it.  An
    opaque object prints as [Object.prototype.toString] prints it. *)
Definition to_string (v : value) : string :=
  match v with
  | Undefined => "undefined"
  | Null => "null"
  | Bool true => "true"
  | Bool false => "false"
  | Str s => s
  | Inherited name =>
      if String.eqb name "__proto__" then "[object Object]"
      else native_source name
  | Obj _ => "[object Object]"
  end.

(** [!v] *)
Definition not_ (v : value) : value := Bool (negb (to_boolean v)).

(** The [let] bindings of [Demoboard], line by line. *)

(** [editorPathname || Object.keys(sources)[0]] *)
Definition Demoboard_filename (p : DemoboardProps.t) : value :=
  or_else (DemoboardProps.editorPathname p)
          (index0 (Object_keys (DemoboardProps.sources p))).

(** [filename.split('.').reverse()[0]] *)
Definition Demoboard_extension (filename : value) : completion value :=
  segments <- String_split filename "." ;;
  Normal (index0 (rev segments)).

(** [languages[extension]] *)
Definition Demoboard_language (extension : value) : value :=
  get languages (to_string extension).

(** [grammars[language]] *)
Definition Demoboard_grammar (language : value) : value :=
  get grammars (to_string language).

(** The three lookups together: what the specification calls resolving
    a file name to its [(language, grammar)] pair. *)
Definition Demoboard_resolve (filename : value) : completion (value * value) :=
  extension <- Demoboard_extension filename ;;
  let language := Demoboard_language extension in
  Normal (language, Demoboard_grammar language).

(** The JSX that [Demoboard] returns, given the language and the
    highlighted markup. *)
Definition Demoboard_view (p : DemoboardProps.t) (language html : value) : node :=
  Element "Doc.Gutter" [("horizontal", Val (Bool true))]
    [ Element "div" [("className", Val (Str "navi-website-code demoboard"))]
        [ Element "Doc.Gutter"
            [ ("Component", Val (Str "pre"));
              ("half", Val (Bool true));
              ("className", Val (Str ("language-" ++ to_string language))) ]
            [ Element "code"
                [ ("id", Val (DemoboardProps.id p));
                  ("style", Val (DemoboardProps.style p));
                  ("dangerouslySetInnerHTML", InnerHTML html) ]
                [] ] ] ].

Definition Demoboard (p : DemoboardProps.t) : completion node :=
  let filename := Demoboard_filename p in
  extension <- Demoboard_extension filename ;;
  let language := Demoboard_language extension in
  html <- Prism_highlight
            (get (DemoboardProps.sources p) (to_string filename))
            (get Prism_languages (to_string (Demoboard_grammar language)))
            language ;;
  Normal (Demoboard_view p language html).

(** [language = 'text'] in the parameter list: the default replaces
    [undefined] and nothing else. *)
Definition code_language (p : CodeProps.t) : value :=
  match CodeProps.language p with
  | Undefined => Str "text"
  | v => v
  end.

Definition code (p : CodeProps.t) : node :=
  let language := code_language p in
  Element "Doc.Block" [("className", Val (Str "navi-website-code"))]
    [ Element "Doc.Gutter"
        [ ("Component", Val (Str "pre"));
          ("half", Val (Bool true));
          ("className", Val (Str ("language-" ++ to_string language))) ]
        [ Element "code"
            [ ("id", Val (CodeProps.id p));
              ("style", Val (CodeProps.style p));
              ("dangerouslySetInnerHTML", InnerHTML (CodeProps.highlightedSource p)) ]
            [] ] ].

(** [App], with the result of [useLoadingRoute()] as its argument. *)
Definition App (loadingRoute : value) : node :=
  Element "DocProvider" [("components", Components Demoboard code)]
    [ Element "BusyIndicator" [("isBusy", Val (not_ (not_ loadingRoute)))] [];
      Element "NotFoundBoundary"
        [("render", Render (fun _ => Element "h1" [] [Text "Not Found"]))]
        [ Element "View" [] [] ] ].

End App.

(** ** The content bundle of the authentication guide

    [demoboardHelpers]: six files by name, each with what the raw loader
    gives for it. *)
Definition demoboardHelpers
    (helpers index routes resourceRoutesWithLink resourceRoutesWithRedirects
       styles : value) : object :=
  [ ("helpers.js", helpers);
    ("index.js", index);
    ("routes.js", routes);
    ("resourceRoutesWithLink.js", resourceRoutesWithLink);
    ("resourceRoutesWithRedirects.js", resourceRoutesWithRedirects);
    ("styles.css", styles) ].

(** ** Reading the tree [App] returns *)

(** The [isBusy] property of the busy indicator among the children of the
    root. *)
Definition isBusy (root : node) : option attr :=
  match child root "BusyIndicator" with
  | Some b => prop (props_of b) "isBusy"
  | None => None
  end.

(** ** The routing library's side

    Modelled from the spec: [useLoadingRoute], [NotFoundBoundary] and
    [View] belong to the routing library, whose code is not part of this
    repository.  The loading-route signal is a route object, [null] or
    [undefined].  The boundary is "a boundary around the rendered view"
    that "catches a no-matching-document condition and renders a fallback
    view": it calls its [render] property when the library has no document
    for the URL and shows its children otherwise, where [View] stands for
    the view of the document that was found. *)

Definition loading_route (v : value) : Prop :=
  v = Undefined \/ v = Null \/ exists r, v = Obj r.

Inductive resolution : Type :=
| NoMatchingDocument
| Document (view : node).

Inductive shown : Type :=
| Fallback (content : node)
| Resolved (content : list node).

Definition View_render (r : resolution) (n : node) : node :=
  match r with
  | Document view => if String.eqb (type_of n) "View" then view else n
  | NoMatchingDocument => n
  end.

Definition NotFoundBoundary_render (r : resolution) (boundary : node)
  : option shown :=
  match r with
  | NoMatchingDocument =>
      match prop (props_of boundary) "render" with
      | Some (Render f) => Some (Fallback (f tt))
      | _ => None
      end
  | Document _ => Some (Resolved (map (View_render r) (children_of boundary)))
  end.

(** What is shown in place of the boundary of [root]. *)
Definition App_shows (r : resolution) (root : node) : option shown :=
  match child root "NotFoundBoundary" with
  | Some b => NotFoundBoundary_render r b
  | None => None
  end.

(** ** The words of the specification *)

(** "The last '.'-separated segment" of a file name. *)
Definition last_segment (filename : string) : string :=
  last (split_on "." filename) "".

(** "The first key of sources in insertion order". *)
Definition first_inserted_key (o : object) : value :=
  index0 (map fst o).

Fixpoint has_char (c : ascii) (s : string) : bool :=
  match s with
  | EmptyString => false
  | String c' rest => Ascii.eqb c' c || has_char c rest
  end.

(** ** A host to run the examples on

    A strict highlighter: it gives back the text as markup when it gets a
    string and a grammar definition, and throws when either is missing.
    Its registry has the grammars the tables name. *)

Definition strict_highlight (text grammar language : value) : completion value :=
  match text, grammar with
  | Str s, Obj _ => Normal (Str s)
  | Str _, _ => Throw (TypeError "The language has no grammar.")
  | _, _ => Throw (TypeError "The text is not a string.")
  end.

Definition strict_host : Host := {|
  Prism_highlight := strict_highlight;
  Prism_languages :=
    [ ("markup", Obj 1); ("html", Obj 1); ("css", Obj 2);
      ("javascript", Obj 3); ("js", Obj 3) ];
  native_source := fun name => ("function " ++ name ++ "() { [native code] }")%string
|}.

Definition demo (editorPathname : option string) (sources : object)
  : DemoboardProps.t :=
  {| DemoboardProps.editorPathname := editorPathname;
     DemoboardProps.id := Undefined;
     DemoboardProps.style := Undefined;
     DemoboardProps.sources := sources |}.

(** * Properties *)

(** ** Splitting and key order *)

Lemma split_on_not_nil (sep : ascii) (s : string) : split_on sep s <> [].
Proof.
  induction s as [|c rest IH]; simpl; [discriminate|].
  destruct (Ascii.eqb c sep); [discriminate|].
  destruct (split_on sep rest); discriminate.
Qed.

Lemma split_on_no_sep (sep : ascii) (s : string) :
  has_char sep s = false -> split_on sep s = [s].
Proof.
  induction s as [|c rest IH]; simpl; intros Hno; [reflexivity|].
  apply orb_false_elim in Hno as [Hc Hrest].
  rewrite Hc, (IH Hrest). reflexivity.
Qed.

Lemma index0_rev (l : list string) :
  l <> [] -> index0 (rev l) = Str (last l "").
Proof.
  intros Hl. destruct (exists_last Hl) as (l' & x & ->).
  rewrite rev_unit, last_last. reflexivity.
Qed.

Lemma index_keys_none (o : object) :
  (forall k, In k (map fst o) -> array_index k = None) -> index_keys o = [].
Proof.
  induction o as [|[k v] rest IH]; intros Hnone; [reflexivity|].
  unfold index_keys in *. simpl.
  rewrite (Hnone k) by (left; reflexivity). simpl.
  apply IH. intros k' Hin. apply Hnone. right. exact Hin.
Qed.

Lemma name_keys_all (o : object) :
  (forall k, In k (map fst o) -> array_index k = None) ->
  name_keys o = map fst o.
Proof.
  induction o as [|[k v] rest IH]; intros Hnone; [reflexivity|].
  unfold name_keys, is_array_index in *. simpl.
  rewrite (Hnone k) by (left; reflexivity). simpl. f_equal.
  apply IH. intros k' Hin. apply Hnone. right. exact Hin.
Qed.

(** Without array indices among the keys, [Object.keys] is the creation
    order. *)
Lemma Object_keys_insertion_order (o : object) :
  (forall k, In k (map fst o) -> array_index k = None) ->
  Object_keys o = map fst o.
Proof.
  intros Hnone. unfold Object_keys.
  rewrite (index_keys_none o Hnone), (name_keys_all o Hnone). reflexivity.
Qed.

Lemma get_absent (o : object) (k : string) :
  own_property o k = None -> inherited_name k = false -> get o k = Undefined.
Proof. unfold get. intros -> ->. reflexivity. Qed.

(** ** The run of [Demoboard] *)

Section Demoboard_run.

Context {H : Host}.

Lemma Demoboard_extension_last (f : string) :
  Demoboard_extension (Str f) = Normal (Str (last_segment f)).
Proof.
  unfold Demoboard_extension, last_segment. simpl.
  rewrite index0_rev by apply split_on_not_nil. reflexivity.
Qed.

(** With a string for a file name, [Demoboard] is one call of the
    highlighter: the text is [sources[filename]], the grammar is
    [Prism.languages[grammars[language]]], and what the call returns is
    injected. *)
Lemma Demoboard_string_filename (p : DemoboardProps.t) (f : string) :
  Demoboard_filename p = Str f ->
  Demoboard p =
    (let language := Demoboard_language (Str (last_segment f)) in
     html <- Prism_highlight
               (get (DemoboardProps.sources p) f)
               (get Prism_languages (to_string (Demoboard_grammar language)))
               language ;;
     Normal (Demoboard_view p language html)).
Proof.
  intros Hf. unfold Demoboard. rewrite Hf, Demoboard_extension_last.
  reflexivity.
Qed.

Lemma Demoboard_no_filename (p : DemoboardProps.t) :
  Demoboard_filename p = Undefined ->
  Demoboard p = Throw NativeTypeError.
Proof. intros Hf. unfold Demoboard. rewrite Hf. reflexivity. Qed.

End Demoboard_run.


(** ** Extension, language and grammar *)

Section Resolution.

Context {H : Host}.

Lemma Demoboard_resolve_string (f : string) :
  Demoboard_resolve (Str f)
  = Normal (Demoboard_language (Str (last_segment f)),
            Demoboard_grammar (Demoboard_language (Str (last_segment f)))).
Proof.
  unfold Demoboard_resolve. rewrite Demoboard_extension_last. reflexivity.
Qed.

(** The label [markup] that the extension table gives to [html] is not a
    key of the grammar table, whose key is [html]. *)
Remark grammars_markup : get grammars "markup" = Undefined.
Proof. reflexivity. Qed.


(** C10.  A file name without a dot is its own extension: the whole name
    is the key looked up in the extension table, and the renderer works
    with [languages[filename]] as the language, for the class, for the
    grammar lookup and in the call of the highlighter.  So for a file
    called [css] the renderer uses the language [css] and the grammar
    [Prism.languages['css']], and for [README] the language [undefined]. *)
Theorem filename_without_dot_is_key (f : string) :
  has_char "." f = false ->
  Demoboard_extension (Str f) = Normal (Str f) /\
  Demoboard_resolve (Str f)
  = Normal (get languages f, Demoboard_grammar (get languages f)) /\
  Demoboard_resolve (Str "css") = Normal (Str "css", Str "css") /\
  Demoboard_resolve (Str "README") = Normal (Undefined, Undefined) /\
  (forall p : DemoboardProps.t,
     Demoboard_filename p = Str f ->
     Demoboard p =
       (html <- Prism_highlight
                  (get (DemoboardProps.sources p) f)
                  (get Prism_languages
                     (to_string (get grammars (to_string (get languages f)))))
                  (get languages f) ;;
        Normal (Demoboard_view p (get languages f) html))) /\
  (forall p : DemoboardProps.t,
     Demoboard_filename p = Str "css" ->
     Demoboard p =
       (html <- Prism_highlight (get (DemoboardProps.sources p) "css")
                  (get Prism_languages "css") (Str "css") ;;
        Normal (Demoboard_view p (Str "css") html))) /\
  (forall p : DemoboardProps.t,
     Demoboard_filename p = Str "README" ->
     Demoboard p =
       (html <- Prism_highlight (get (DemoboardProps.sources p) "README")
                  (get Prism_languages "undefined") Undefined ;;
        Normal (Demoboard_view p Undefined html))).
Proof.
  intros Hdot.
  assert (Hseg : last_segment f = f).
  { unfold last_segment. rewrite (split_on_no_sep "." f Hdot). reflexivity. }
  split; [|split; [|split; [reflexivity|split; [reflexivity|split; [|split]]]]].
  - rewrite Demoboard_extension_last, Hseg. reflexivity.
  - rewrite Demoboard_resolve_string, Hseg. reflexivity.
  - intros p Hf. rewrite (Demoboard_string_filename p f Hf), Hseg.
    reflexivity.
  - intros p Hf. rewrite (Demoboard_string_filename p "css" Hf). reflexivity.
  - intros p Hf. rewrite (Demoboard_string_filename p "README" Hf).
    reflexivity.
Qed.

(** C1, as the code has it.  When the last segment of the file name is
    neither a key of the extension table nor a name inherited from
    [Object.prototype], the language and the grammar identifier are both
    [undefined], the grammar is [Prism.languages['undefined']], and the
    renderer calls the highlighter with these: it injects the markup the
    call returns, under the class [language-undefined], and it throws
    what the call throws.  There is no plain-text path of its own. *)
Theorem unknown_extension_goes_to_highlighter
    (p : DemoboardProps.t) (f : string) :
  Demoboard_filename p = Str f ->
  own_property languages (last_segment f) = None ->
  inherited_name (last_segment f) = false ->
  let call := Prism_highlight (get (DemoboardProps.sources p) f)
                              (get Prism_languages "undefined") Undefined in
  Demoboard_resolve (Str f) = Normal (Undefined, Undefined) /\
  Demoboard p = (html <- call ;; Normal (Demoboard_view p Undefined html)) /\
  (forall e, call = Throw e -> Demoboard p = Throw e) /\
  (forall html, call = Normal html ->
     exists view,
       Demoboard p = Normal view /\
       injected_markup 3 view = Some html /\
       pre_className 2 view = Some (Str "language-undefined")).
Proof.
  intros Hf Hown Hinh call.
  assert (Hlang : Demoboard_language (Str (last_segment f)) = Undefined).
  { unfold Demoboard_language. simpl. apply get_absent; assumption. }
  assert (Hrun : Demoboard p
                 = (html <- call ;; Normal (Demoboard_view p Undefined html))).
  { rewrite (Demoboard_string_filename p f Hf). cbv zeta.
    rewrite Hlang. reflexivity. }
  split; [|split; [exact Hrun|split]].
  - rewrite Demoboard_resolve_string, Hlang. reflexivity.
  - intros e He. rewrite Hrun, He. reflexivity.
  - intros html Hhtml. exists (Demoboard_view p Undefined html).
    rewrite Hrun, Hhtml. repeat split.
Qed.

End Resolution.


Lemma filename_without_dot_is_key_witness :
  Demoboard_extension (Str "Makefile") = Normal (Str "Makefile") /\
  Demoboard (H := strict_host) (demo (Some "css") [("css", Str "a {}")])
  = Normal (Demoboard_view (H := strict_host)
              (demo (Some "css") [("css", Str "a {}")])
              (Str "css") (Str "a {}")).
Proof.
  split.
  - apply (filename_without_dot_is_key (H := strict_host) "Makefile").
    reflexivity.
  - etransitivity.
    + apply (proj1 (proj2 (proj2 (proj2 (proj2 (proj2
               (filename_without_dot_is_key (H := strict_host) "css"
                  eq_refl))))))).
      reflexivity.
    + reflexivity.
Defined.

Lemma unknown_extension_goes_to_highlighter_witness :
  Demoboard (H := strict_host)
    (demo (Some "README.md") [("README.md", Str "# Navi")])
  = Throw (TypeError "The language has no grammar.").
Proof.
  apply (unknown_extension_goes_to_highlighter (H := strict_host)
           (demo (Some "README.md") [("README.md", Str "# Navi")])
           "README.md");
    reflexivity.
Defined.

(** C1 as the specification words it fails twice.  The extension
    [constructor] is not in the table, yet [languages['constructor']] is
    the inherited [Object], not [undefined].  And for [README.md], whose
    language is [undefined], the outcome is the highlighter's: a strict one
    throws, and so does the renderer. *)
Lemma unknown_extension_counterexample :
  own_property languages (last_segment "a.constructor") = None /\
  Demoboard_language (H := strict_host) (Str (last_segment "a.constructor"))
  = Inherited "constructor" /\
  Demoboard_language (H := strict_host) (Str (last_segment "a.constructor"))
  <> Undefined /\
  own_property languages (last_segment "README.md") = None /\
  Demoboard_language (H := strict_host) (Str (last_segment "README.md"))
  = Undefined /\
  Demoboard (H := strict_host)
    (demo (Some "README.md") [("README.md", Str "# Navi")])
  = Throw (TypeError "The language has no grammar.").
Proof.
  repeat split; try reflexivity. discriminate.
Qed.

(** ** The active file *)

Lemma or_else_nonempty (s : string) (b : value) :
  s <> "" -> or_else (Some s) b = Str s.
Proof.
  intros Hs. unfold or_else. simpl.
  apply String.eqb_neq in Hs. rewrite Hs. reflexivity.
Qed.

Section Active_file.

Context {H : Host}.

(** C2, as the code has it.  The active file name is [editorPathname]
    when that is a string that is not empty, and [Object.keys(sources)[0]]
    otherwise.  The latter is the first key in insertion order as long as
    no key of [sources] is an array index.  With a file name, the text
    handed to the highlighter is [sources[filename]]; without one (no
    usable [editorPathname] and no key) the render throws. *)
Theorem active_filename (p : DemoboardProps.t) :
  (forall s, DemoboardProps.editorPathname p = Some s -> s <> "" ->
     Demoboard_filename p = Str s) /\
  (DemoboardProps.editorPathname p = None \/
   DemoboardProps.editorPathname p = Some "" ->
     Demoboard_filename p = index0 (Object_keys (DemoboardProps.sources p))) /\
  ((forall k, In k (map fst (DemoboardProps.sources p)) ->
              array_index k = None) ->
     index0 (Object_keys (DemoboardProps.sources p))
     = first_inserted_key (DemoboardProps.sources p)) /\
  (forall f, Demoboard_filename p = Str f ->
     exists grammar language,
       Demoboard p =
         (html <- Prism_highlight (get (DemoboardProps.sources p) f)
                                  grammar language ;;
          Normal (Demoboard_view p language html))) /\
  (Demoboard_filename p = Undefined -> exists e, Demoboard p = Throw e).
Proof.
  repeat split.
  - intros s Hs Hne. unfold Demoboard_filename. rewrite Hs.
    apply or_else_nonempty. exact Hne.
  - intros [Hs|Hs]; unfold Demoboard_filename; rewrite Hs; reflexivity.
  - intros Hnone. unfold first_inserted_key.
    rewrite (Object_keys_insertion_order _ Hnone). reflexivity.
  - intros f Hf. eexists. eexists.
    rewrite (Demoboard_string_filename p f Hf). reflexivity.
  - intros Hf. eexists. apply Demoboard_no_filename. exact Hf.
Qed.



End Active_file.


Lemma active_filename_witness :
  Demoboard_filename
    (demo (Some "b.js") [("a.js", Str "A"); ("b.js", Str "B")]) = Str "b.js" /\
  Demoboard_filename
    (demo None [("helpers.js", Str "H"); ("index.js", Str "I")])
  = Str "helpers.js" /\
  index0 (Object_keys [("helpers.js", Str "H"); ("index.js", Str "I")])
  = first_inserted_key [("helpers.js", Str "H"); ("index.js", Str "I")].
Proof.
  split; [|split].
  - apply (proj1 (active_filename (H := strict_host)
             (demo (Some "b.js") [("a.js", Str "A"); ("b.js", Str "B")]))
             "b.js"); [reflexivity | discriminate].
  - etransitivity.
    + apply (proj1 (proj2 (active_filename (H := strict_host)
               (demo None [("helpers.js", Str "H"); ("index.js", Str "I")])))).
      left. reflexivity.
    + reflexivity.
  - apply (proj1 (proj2 (proj2 (active_filename (H := strict_host)
             (demo None [("helpers.js", Str "H"); ("index.js", Str "I")]))))).
    simpl. intros k [<-|[<-|[]]]; reflexivity.
Defined.

(** C2 as the specification words it fails twice.  An [editorPathname]
    that is present but empty is not the active file.  And with
    [editorPathname] omitted and the keys [b.js] and [1] created in this
    order, the active file is [1]: [Object.keys] lists an array index
    before the names. *)
Lemma active_filename_counterexample :
  Demoboard_filename (demo (Some "") [("a.js", Str "A")]) = Str "a.js" /\
  Demoboard_filename (demo (Some "") [("a.js", Str "A")]) <> Str "" /\
  first_inserted_key [("b.js", Str "B"); ("1", Str "one")] = Str "b.js" /\
  Demoboard_filename (demo None [("b.js", Str "B"); ("1", Str "one")])
  = Str "1" /\
  Demoboard_filename (demo None [("b.js", Str "B"); ("1", Str "one")])
  <> first_inserted_key [("b.js", Str "B"); ("1", Str "one")].
Proof.
  repeat split; try reflexivity; discriminate.
Qed.



(** ** The inline code renderer *)

Section Inline_code.

Context {H : Host}.

(** C4.  The markup the inline renderer injects is its [highlightedSource]
    input, unchanged, whatever it is (the empty string included); the
    [code] element that carries it has no other content. *)
Theorem code_injects_highlightedSource (p : CodeProps.t) :
  injected_markup 2 (code p) = Some (CodeProps.highlightedSource p) /\
  (exists block_props gutter_props,
     code p =
       Element "Doc.Block" block_props
         [ Element "Doc.Gutter" gutter_props
             [ Element "code"
                 [ ("id", Val (CodeProps.id p));
                   ("style", Val (CodeProps.style p));
                   ("dangerouslySetInnerHTML",
                    InnerHTML (CodeProps.highlightedSource p)) ]
                 [] ] ]) /\
  (forall (s : string) (l i st : value),
     injected_markup 2
       (code {| CodeProps.highlightedSource := Str s;
                CodeProps.language := l;
                CodeProps.id := i;
                CodeProps.style := st |})
     = Some (Str s)).
Proof.
  split; [reflexivity|split].
  - eexists. eexists. reflexivity.
  - intros. reflexivity.
Qed.

(** C7.  An omitted language is the language [text]: the class is then
    [language-text].  A language that is given goes into the class name,
    ['language-' + language] (for the label [s], the class [language-s]),
    and nowhere else: the injected markup is the same for any two
    languages, and two calls that agree on the other properties and on the
    class name return the same tree. *)
Theorem code_language_selects_class :
  (forall hs i st : value,
     code {| CodeProps.highlightedSource := hs;
             CodeProps.language := Undefined;
             CodeProps.id := i;
             CodeProps.style := st |}
     = code {| CodeProps.highlightedSource := hs;
               CodeProps.language := Str "text";
               CodeProps.id := i;
               CodeProps.style := st |}) /\
  (forall p : CodeProps.t,
     pre_className 1 (code p)
     = Some (Str ("language-" ++ to_string (code_language p)))) /\
  (forall hs i st : value,
     pre_className 1
       (code {| CodeProps.highlightedSource := hs;
                CodeProps.language := Undefined;
                CodeProps.id := i;
                CodeProps.style := st |})
     = Some (Str "language-text")) /\
  (forall (s : string) (hs i st : value),
     pre_className 1
       (code {| CodeProps.highlightedSource := hs;
                CodeProps.language := Str s;
                CodeProps.id := i;
                CodeProps.style := st |})
     = Some (Str ("language-" ++ s))) /\
  (forall l hs i st : value,
     l <> Undefined ->
     pre_className 1
       (code {| CodeProps.highlightedSource := hs;
                CodeProps.language := l;
                CodeProps.id := i;
                CodeProps.style := st |})
     = Some (Str ("language-" ++ to_string l))) /\
  (forall hs l1 l2 i st : value,
     injected_markup 2
       (code {| CodeProps.highlightedSource := hs;
                CodeProps.language := l1;
                CodeProps.id := i;
                CodeProps.style := st |})
     = injected_markup 2
         (code {| CodeProps.highlightedSource := hs;
                  CodeProps.language := l2;
                  CodeProps.id := i;
                  CodeProps.style := st |})) /\
  (forall p q : CodeProps.t,
     CodeProps.highlightedSource p = CodeProps.highlightedSource q ->
     CodeProps.id p = CodeProps.id q ->
     CodeProps.style p = CodeProps.style q ->
     pre_className 1 (code p) = pre_className 1 (code q) ->
     code p = code q).
Proof.
  split; [reflexivity|]. split; [reflexivity|]. split; [reflexivity|].
  split; [reflexivity|]. split; [|split; [reflexivity|]].
  - intros l hs i st Hl. destruct l; first [contradiction | reflexivity].
  - intros p q Hhs Hid Hst Hclass. simpl in Hclass.
    injection Hclass as Hclass.
    unfold code. rewrite Hhs, Hid, Hst, Hclass. reflexivity.
Qed.

End Inline_code.

Lemma code_language_selects_class_witness :
  code (H := strict_host)
    {| CodeProps.highlightedSource := Str "<b>x</b>";
       CodeProps.language := Undefined;
       CodeProps.id := Undefined;
       CodeProps.style := Undefined |}
  = code (H := strict_host)
      {| CodeProps.highlightedSource := Str "<b>x</b>";
         CodeProps.language := Str "text";
         CodeProps.id := Undefined;
         CodeProps.style := Undefined |}.
Proof.
  apply (proj2 (proj2 (proj2 (proj2 (proj2 (proj2
           (code_language_selects_class (H := strict_host))))))));
    reflexivity.
Defined.

(** ** The busy indicator and the not-found boundary *)

Section Shell.

Context {H : Host}.

Lemma isBusy_App (v : value) :
  isBusy (App v) = Some (Val (Bool (to_boolean v))).
Proof.
  unfold isBusy, App, not_. simpl. rewrite negb_involutive. reflexivity.
Qed.

(** C5.  For a loading-route signal (a route object, [null] or
    [undefined]) the indicator's [isBusy] is [true] exactly when the signal
    is neither [null] nor [undefined], and [false] otherwise.  Along
    [null], a route, [null] it reads [false], [true], [false]. *)
Theorem isBusy_reflects_loading_route (v : value) (r : nat) :
  loading_route v ->
  (isBusy (App v) = Some (Val (Bool true)) <-> v <> Null /\ v <> Undefined) /\
  (isBusy (App v) = Some (Val (Bool false)) <-> v = Null \/ v = Undefined) /\
  map (fun signal => isBusy (App signal)) [Null; Obj r; Null]
  = [ Some (Val (Bool false)); Some (Val (Bool true)); Some (Val (Bool false)) ].
Proof.
  intros Hv. rewrite isBusy_App.
  split; [|split; [|reflexivity]].
  - destruct Hv as [->|[->|[r' ->]]]; simpl; split;
      first [ discriminate
            | intros [? ?]; congruence
            | intros _; split; discriminate ].
  - destruct Hv as [->|[->|[r' ->]]]; simpl; split;
      first [ discriminate
            | intros [?|?]; discriminate
            | intros _; auto ].
Qed.

(** C8.  In place of the boundary, the fallback is shown if and only if
    the routing library has no document for the URL, and the fallback is
    the [h1] element with the text [Not Found]; when a document is found,
    its view is shown instead. *)
Theorem not_found_fallback (loadingRoute : value) (r : resolution) :
  (App_shows r (App loadingRoute)
   = Some (Fallback (Element "h1" [] [Text "Not Found"]))
   <-> r = NoMatchingDocument) /\
  ((exists content, App_shows r (App loadingRoute) = Some (Fallback content))
   <-> r = NoMatchingDocument) /\
  (forall view, r = Document view ->
     App_shows r (App loadingRoute) = Some (Resolved [view])).
Proof.
  split; [|split].
  - destruct r as [|view]; simpl; split;
      first [reflexivity | discriminate].
  - destruct r as [|view]; simpl; split.
    + reflexivity.
    + intros _. eexists. reflexivity.
    + intros [content Hc]. discriminate.
    + discriminate.
  - intros view ->. reflexivity.
Qed.

End Shell.

Lemma isBusy_reflects_loading_route_witness :
  isBusy (App (H := strict_host) (Obj 7)) = Some (Val (Bool true)).
Proof.
  apply (proj1 (isBusy_reflects_loading_route (H := strict_host) (Obj 7) 0
                  (or_intror (or_intror (ex_intro _ 7 eq_refl))))).
  split; discriminate.
Defined.

Lemma not_found_fallback_witness :
  App_shows (Document (Text "Guides")) (App (H := strict_host) Undefined)
  = Some (Resolved [Text "Guides"]).
Proof.
  apply (proj2 (proj2 (not_found_fallback (H := strict_host) Undefined
                         (Document (Text "Guides"))))).
  reflexivity.
Defined.

(** * Further properties of the renderers *)

(** ** More on splitting and on [Object.keys] *)

Lemma split_on_app (sep : ascii) (a b : string) :
  split_on sep (a ++ String sep b) = split_on sep a ++ split_on sep b.
Proof.
  induction a as [|c a' IH]; simpl.
  - rewrite Ascii.eqb_refl. reflexivity.
  - destruct (Ascii.eqb c sep).
    + rewrite IH. reflexivity.
    + rewrite IH. pose proof (split_on_not_nil sep a') as Hne.
      destruct (split_on sep a') as [|seg segs]; [contradiction|reflexivity].
Qed.

Lemma last_app_right (l1 l2 : list string) (d : string) :
  l2 <> [] -> last (l1 ++ l2) d = last l2 d.
Proof.
  intros Hne. destruct (exists_last Hne) as (l' & x & ->).
  rewrite app_assoc, !last_last. reflexivity.
Qed.

Lemma last_segment_dotted (base ext : string) :
  has_char "." ext = false -> last_segment (base ++ String "." ext) = ext.
Proof.
  intros Hext. unfold last_segment.
  rewrite split_on_app, last_app_right by apply split_on_not_nil.
  rewrite (split_on_no_sep "." ext Hext). reflexivity.
Qed.

Lemma insert_index_In (k x : N * string) (l : list (N * string)) :
  In x (insert_index k l) <-> x = k \/ In x l.
Proof.
  induction l as [|h t IH]; simpl.
  - intuition congruence.
  - destruct (fst k <=? fst h)%N; simpl; [intuition congruence|].
    rewrite IH. intuition congruence.
Qed.

Lemma sort_indices_In (x : N * string) (l : list (N * string)) :
  In x (sort_indices l) <-> In x l.
Proof.
  induction l as [|h t IH]; simpl; [reflexivity|].
  rewrite insert_index_In, IH. intuition congruence.
Qed.

Lemma index_keys_In (o : object) (n : N) (k : string) :
  In (n, k) (index_keys o) <-> In k (map fst o) /\ array_index k = Some n.
Proof.
  unfold index_keys. rewrite in_flat_map. split.
  - intros ([k' v] & Hin & Hx). simpl in Hx.
    destruct (array_index k') as [m|] eqn:Hidx; [|contradiction].
    destruct Hx as [Hx|[]]. injection Hx as -> ->.
    split; [|exact Hidx]. apply in_map_iff. exists (k, v). split; auto.
  - intros [Hin Hidx]. apply in_map_iff in Hin as ([k' v] & Hk & Hin).
    simpl in Hk. subst k'. exists (k, v). split; [exact Hin|].
    simpl. rewrite Hidx. left. reflexivity.
Qed.

(** [Object.keys] lists the own keys and nothing else. *)
Lemma Object_keys_In (o : object) (k : string) :
  In k (Object_keys o) <-> In k (map fst o).
Proof.
  unfold Object_keys. rewrite in_app_iff. split.
  - intros [Hidx|Hname].
    + apply in_map_iff in Hidx as ([n k'] & Hk & Hin). simpl in Hk. subst k'.
      apply sort_indices_In, index_keys_In in Hin. apply Hin.
    + unfold name_keys in Hname. apply filter_In in Hname. apply Hname.
  - intros Hin. destruct (array_index k) as [n|] eqn:Hidx.
    + left. apply in_map_iff. exists (n, k). split; [reflexivity|].
      apply sort_indices_In, index_keys_In. split; assumption.
    + right. unfold name_keys. apply filter_In. split; [exact Hin|].
      unfold is_array_index. rewrite Hidx. reflexivity.
Qed.

Lemma Object_keys_nil (o : object) : Object_keys o = [] -> o = [].
Proof.
  destruct o as [|[k v] rest]; [reflexivity|]. intros Hnil.
  assert (Hin : In k (Object_keys ((k, v) :: rest))).
  { apply Object_keys_In. left. reflexivity. }
  rewrite Hnil in Hin. destruct Hin.
Qed.

Lemma In_own_property (o : object) (k : string) :
  In k (map fst o) -> exists v, own_property o k = Some v.
Proof.
  induction o as [|[k' v'] rest IH]; simpl; [intros []|].
  destruct (String.eqb_spec k' k) as [->|Hne]; [exists v'; reflexivity|].
  intros [Heq|Hin]; [contradiction|exact (IH Hin)].
Qed.

(** The head of the sorted indices is a least one. *)
Lemma sort_indices_head (l : list (N * string)) (h : N * string)
    (t : list (N * string)) :
  sort_indices l = h :: t ->
  In h l /\ forall x, In x l -> (fst h <= fst x)%N.
Proof.
  revert h t. induction l as [|a l IH]; intros h t Hsort; [discriminate|].
  simpl in Hsort. destruct (sort_indices l) as [|h' t'] eqn:Hl.
  - assert (l = []) as ->.
    { destruct l as [|b l']; [reflexivity|].
      assert (Hb : In b (sort_indices (b :: l')))
        by (apply sort_indices_In; left; reflexivity).
      rewrite Hl in Hb. destruct Hb. }
    simpl in Hsort. injection Hsort as <- <-.
    split; [left; reflexivity|]. intros x [<-|[]]. lia.
  - destruct (IH h' t' eq_refl) as [Hin Hle]. simpl in Hsort.
    destruct (fst a <=? fst h')%N eqn:Hcmp.
    + injection Hsort as <- <-. apply N.leb_le in Hcmp.
      split; [left; reflexivity|]. intros x [<-|Hx]; [lia|].
      specialize (Hle x Hx). lia.
    + injection Hsort as <- <-. apply N.leb_gt in Hcmp.
      split; [right; exact Hin|]. intros x [<-|Hx]; [lia|].
      exact (Hle x Hx).
Qed.

Lemma Demoboard_filename_cases (p : DemoboardProps.t) :
  (exists f, Demoboard_filename p = Str f) \/
  (Demoboard_filename p = Undefined /\
   (DemoboardProps.editorPathname p = None \/
    DemoboardProps.editorPathname p = Some "") /\
   DemoboardProps.sources p = []).
Proof.
  unfold Demoboard_filename.
  assert (Hkeys : (exists f, index0 (Object_keys (DemoboardProps.sources p))
                             = Str f) \/
                  (index0 (Object_keys (DemoboardProps.sources p)) = Undefined /\
                   DemoboardProps.sources p = [])).
  { destruct (Object_keys (DemoboardProps.sources p)) as [|k ks] eqn:Hk.
    - right. split; [reflexivity|]. apply Object_keys_nil. exact Hk.
    - left. exists k. reflexivity. }
  destruct (DemoboardProps.editorPathname p) as [s|]; simpl.
  - destruct (String.eqb_spec s "") as [->|Hne]; simpl.
    + destruct Hkeys as [Hf|[Hu Hnil]]; [left; exact Hf|].
      right. repeat split; auto.
    + left. exists s. reflexivity.
  - destruct Hkeys as [Hf|[Hu Hnil]]; [left; exact Hf|].
    right. repeat split; auto.
Qed.

Section Further_resolution.

Context {H : Host}.

(** X1.  In a file name [base.ext] where [ext] has no dot, the extension
    is [ext], whatever [base] holds (dots and slashes included), and the
    renderer works with the language [languages[ext]]: it is the language
    of the class, of the grammar lookup and of the call of the
    highlighter.  A name that ends in a dot has the empty extension and
    no language. *)
Theorem extension_of_dotted_name (base ext : string) :
  has_char "." ext = false ->
  Demoboard_extension (Str (base ++ String "." ext)) = Normal (Str ext) /\
  Demoboard_resolve (Str (base ++ String "." ext))
  = Normal (get languages ext, Demoboard_grammar (get languages ext)) /\
  Demoboard_resolve (Str (base ++ ".")) = Normal (Undefined, Undefined) /\
  (forall p : DemoboardProps.t,
     Demoboard_filename p = Str (base ++ String "." ext) ->
     Demoboard p =
       (html <- Prism_highlight
                  (get (DemoboardProps.sources p) (base ++ String "." ext))
                  (get Prism_languages
                     (to_string (get grammars (to_string (get languages ext)))))
                  (get languages ext) ;;
        Normal (Demoboard_view p (get languages ext) html))) /\
  (forall p : DemoboardProps.t,
     Demoboard_filename p = Str (base ++ ".") ->
     Demoboard p =
       (html <- Prism_highlight
                  (get (DemoboardProps.sources p) (base ++ "."))
                  (get Prism_languages "undefined") Undefined ;;
        Normal (Demoboard_view p Undefined html))).
Proof.
  intros Hext. split; [|split; [|split; [|split]]].
  - rewrite Demoboard_extension_last, (last_segment_dotted base ext Hext).
    reflexivity.
  - rewrite Demoboard_resolve_string, (last_segment_dotted base ext Hext).
    reflexivity.
  - rewrite Demoboard_resolve_string, (last_segment_dotted base "" eq_refl).
    reflexivity.
  - intros p Hf. rewrite (Demoboard_string_filename p _ Hf).
    rewrite (last_segment_dotted base ext Hext). reflexivity.
  - intros p Hf. rewrite (Demoboard_string_filename p _ Hf).
    rewrite (last_segment_dotted base "" eq_refl). reflexivity.
Qed.


(** X3.  For a file whose extension is [html] the language is [markup],
    the class is [language-markup], and the grammar handed to the
    highlighter is [Prism.languages['undefined']], the one an unknown
    extension gets: what the registry has under [html] or [markup] is not
    read. *)
Theorem html_file_gets_no_grammar (p : DemoboardProps.t) (f : string) :
  Demoboard_filename p = Str f ->
  last_segment f = "html" ->
  let call := Prism_highlight (get (DemoboardProps.sources p) f)
                              (get Prism_languages "undefined")
                              (Str "markup") in
  Demoboard p = (html <- call ;; Normal (Demoboard_view p (Str "markup") html)) /\
  (forall e, call = Throw e -> Demoboard p = Throw e) /\
  (forall html, call = Normal html ->
     exists view, Demoboard p = Normal view /\
                  pre_className 2 view = Some (Str "language-markup")).
Proof.
  intros Hf Hext call.
  assert (Hrun : Demoboard p
                 = (html <- call ;;
                    Normal (Demoboard_view p (Str "markup") html))).
  { rewrite (Demoboard_string_filename p f Hf), Hext. reflexivity. }
  split; [exact Hrun|split].
  - intros e He. rewrite Hrun, He. reflexivity.
  - intros html Hhtml. eexists. rewrite Hrun, Hhtml. split; reflexivity.
Qed.


(** X5.  [Demoboard] throws in two ways, and in these only.  It throws
    the engine's [TypeError] (from calling [split] on [undefined]) exactly
    when [editorPathname] is omitted or empty and [sources] has no key.
    Otherwise there is a file name, and it throws exactly when the call of
    the highlighter throws, and then what that call threw. *)
Theorem Demoboard_throws_only (p : DemoboardProps.t) (e : exn) :
  Demoboard p = Throw e <->
  ((DemoboardProps.editorPathname p = None \/
    DemoboardProps.editorPathname p = Some "") /\
   DemoboardProps.sources p = [] /\
   e = NativeTypeError) \/
  (exists f,
     let language := Demoboard_language (Str (last_segment f)) in
     Demoboard_filename p = Str f /\
     Prism_highlight (get (DemoboardProps.sources p) f)
       (get Prism_languages (to_string (Demoboard_grammar language)))
       language = Throw e).
Proof.
  split.
  - intros Hrun.
    destruct (Demoboard_filename_cases p) as [[f Hf]|(Hu & Hed & Hnil)].
    + right. exists f. cbv zeta. split; [exact Hf|].
      rewrite (Demoboard_string_filename p f Hf) in Hrun. cbv zeta in Hrun.
      destruct (Prism_highlight _ _ _) as [html|e'] eqn:Hcall;
        simpl in Hrun; [discriminate|].
      injection Hrun as ->. reflexivity.
    + left. rewrite (Demoboard_no_filename p Hu) in Hrun.
      injection Hrun as <-. repeat split; assumption.
  - intros [(Hed & Hnil & ->)|(f & Hf & Hcall)].
    + apply Demoboard_no_filename. unfold Demoboard_filename.
      rewrite Hnil. destruct Hed as [->| ->]; reflexivity.
    + rewrite (Demoboard_string_filename p f Hf). cbv zeta.
      cbv zeta in Hcall. rewrite Hcall. reflexivity.
Qed.

End Further_resolution.

Lemma extension_of_dotted_name_witness :
  Demoboard_extension (Str "src/app.test.js") = Normal (Str "js").
Proof.
  apply (extension_of_dotted_name (H := strict_host) "src/app.test" "js").
  reflexivity.
Defined.


Lemma html_file_gets_no_grammar_witness :
  Demoboard (H := strict_host)
    (demo (Some "index.html") [("index.html", Str "<p>Hi</p>")])
  = Throw (TypeError "The language has no grammar.").
Proof.
  apply (html_file_gets_no_grammar (H := strict_host)
           (demo (Some "index.html") [("index.html", Str "<p>Hi</p>")])
           "index.html");
    reflexivity.
Defined.


Lemma Demoboard_throws_only_witness :
  Demoboard (H := strict_host) (demo (Some "") []) = Throw NativeTypeError /\
  Demoboard (H := strict_host)
    (demo (Some "notes.md") [("notes.md", Str "# Notes")])
  = Throw (TypeError "The language has no grammar.").
Proof.
  split.
  - apply (proj2 (Demoboard_throws_only (H := strict_host)
                    (demo (Some "") []) NativeTypeError)).
    left. repeat split. right. reflexivity.
  - apply (proj2 (Demoboard_throws_only (H := strict_host)
                    (demo (Some "notes.md") [("notes.md", Str "# Notes")])
                    (TypeError "The language has no grammar."))).
    right. exists "notes.md". split; reflexivity.
Defined.

(** ** The file shown when [editorPathname] is not used *)

Lemma own_property_Permutation (o o' : object) (k : string) :
  NoDup (map fst o) -> Permutation o o' ->
  own_property o k = own_property o' k.
Proof.
  intros Hnd Hperm. induction Hperm as [|[k1 v1] l l' Hperm IH
                                        |[k1 v1] [k2 v2] l
                                        |l l' l'' Hp1 IH1 Hp2 IH2].
  - reflexivity.
  - simpl. inversion Hnd; subst. rewrite IH by assumption. reflexivity.
  - simpl. destruct (String.eqb_spec k1 k) as [->|H1];
      destruct (String.eqb_spec k2 k) as [->|H2]; try reflexivity.
    simpl in Hnd. inversion Hnd as [|? ? Hnotin _]; subst.
    exfalso. apply Hnotin. left. reflexivity.
  - rewrite IH1 by assumption. apply IH2.
    apply (Permutation_NoDup (Permutation_map fst Hp1)). exact Hnd.
Qed.

Section Fallback_file.

Context {H : Host}.

(** X6.  When [editorPathname] is omitted or empty and [sources] has a
    key, there is an active file, it is a key of [sources], and the text
    handed to the highlighter is the value stored under it: nothing is read
    from the prototype and the render does not fail for want of a file
    name. *)
Theorem fallback_file_is_own_key (p : DemoboardProps.t) :
  DemoboardProps.editorPathname p = None \/
  DemoboardProps.editorPathname p = Some "" ->
  DemoboardProps.sources p <> [] ->
  exists f text,
    let language := Demoboard_language (Str (last_segment f)) in
    Demoboard_filename p = Str f /\
    own_property (DemoboardProps.sources p) f = Some text /\
    Demoboard p =
      (html <- Prism_highlight text
                 (get Prism_languages (to_string (Demoboard_grammar language)))
                 language ;;
       Normal (Demoboard_view p language html)).
Proof.
  intros Hed Hne.
  assert (Hfile : Demoboard_filename p
                  = index0 (Object_keys (DemoboardProps.sources p))).
  { unfold Demoboard_filename. destruct Hed as [->| ->]; reflexivity. }
  destruct (Object_keys (DemoboardProps.sources p)) as [|f ks] eqn:Hkeys.
  { exfalso. apply Hne. apply Object_keys_nil. exact Hkeys. }
  simpl in Hfile.
  assert (Hin : In f (map fst (DemoboardProps.sources p))).
  { apply Object_keys_In. rewrite Hkeys. left. reflexivity. }
  destruct (In_own_property _ _ Hin) as [text Hown].
  exists f, text. cbv zeta. split; [exact Hfile|split; [exact Hown|]].
  rewrite (Demoboard_string_filename p f Hfile). cbv zeta.
  unfold get at 1. rewrite Hown. reflexivity.
Qed.

(** X7.  When [editorPathname] is omitted or empty and some key of
    [sources] is an array index, the file the renderer works on is an
    array-index key, and no array-index key of [sources] has a smaller
    number, wherever the keys stand in creation order: the highlighter is
    called with the text stored under that key and with the language and
    grammar of that key's extension. *)
Theorem fallback_file_is_least_index
    (p : DemoboardProps.t) (k : string) (n : N) :
  DemoboardProps.editorPathname p = None \/
  DemoboardProps.editorPathname p = Some "" ->
  In k (map fst (DemoboardProps.sources p)) ->
  array_index k = Some n ->
  exists f m text,
    let language := Demoboard_language (Str (last_segment f)) in
    Demoboard_filename p = Str f /\
    In f (map fst (DemoboardProps.sources p)) /\
    array_index f = Some m /\
    (m <= n)%N /\
    own_property (DemoboardProps.sources p) f = Some text /\
    Demoboard p =
      (html <- Prism_highlight text
                 (get Prism_languages (to_string (Demoboard_grammar language)))
                 language ;;
       Normal (Demoboard_view p language html)).
Proof.
  intros Hed Hin Hidx.
  assert (Hfile : Demoboard_filename p
                  = index0 (Object_keys (DemoboardProps.sources p))).
  { unfold Demoboard_filename. destruct Hed as [->| ->]; reflexivity. }
  assert (Hk : In (n, k) (index_keys (DemoboardProps.sources p))).
  { apply index_keys_In. split; assumption. }
  unfold Object_keys in Hfile.
  destruct (sort_indices (index_keys (DemoboardProps.sources p)))
    as [|[m f] t] eqn:Hsort.
  { apply sort_indices_In in Hk. rewrite Hsort in Hk. destruct Hk. }
  destruct (sort_indices_head _ _ _ Hsort) as [Hhead Hleast].
  apply index_keys_In in Hhead as [Hfin Hfidx].
  destruct (In_own_property _ _ Hfin) as [text Hown].
  simpl in Hfile.
  exists f, m, text. cbv zeta.
  split; [exact Hfile|]. split; [exact Hfin|]. split; [exact Hfidx|].
  split; [exact (Hleast (n, k) Hk)|]. split; [exact Hown|].
  rewrite (Demoboard_string_filename p f Hfile). cbv zeta.
  unfold get at 1. rewrite Hown. reflexivity.
Qed.

(** X8.  With an [editorPathname] that is not empty, the order of the keys
    of [sources] does not matter: two property sets with the same
    [editorPathname], [id] and [style], whose sources hold the same entries
    in any order, give the same render. *)
Theorem editorPathname_ignores_order (p q : DemoboardProps.t) (s : string) :
  DemoboardProps.editorPathname p = Some s ->
  DemoboardProps.editorPathname q = Some s ->
  s <> "" ->
  DemoboardProps.id p = DemoboardProps.id q ->
  DemoboardProps.style p = DemoboardProps.style q ->
  NoDup (map fst (DemoboardProps.sources p)) ->
  Permutation (DemoboardProps.sources p) (DemoboardProps.sources q) ->
  Demoboard p = Demoboard q.
Proof.
  intros Hp Hq Hne Hid Hstyle Hnd Hperm.
  assert (Hfp : Demoboard_filename p = Str s).
  { unfold Demoboard_filename. rewrite Hp. apply or_else_nonempty, Hne. }
  assert (Hfq : Demoboard_filename q = Str s).
  { unfold Demoboard_filename. rewrite Hq. apply or_else_nonempty, Hne. }
  rewrite (Demoboard_string_filename p s Hfp),
          (Demoboard_string_filename q s Hfq).
  unfold get at 1 4.
  rewrite (own_property_Permutation _ _ s Hnd Hperm).
  unfold Demoboard_view. rewrite Hid, Hstyle. reflexivity.
Qed.

End Fallback_file.

Lemma fallback_file_is_own_key_witness :
  exists f text,
    Demoboard_filename
      (demo (Some "") [("styles.css", Str "a {}"); ("0", Str "zero")])
    = Str f /\
    own_property [("styles.css", Str "a {}"); ("0", Str "zero")] f = Some text.
Proof.
  destruct (fallback_file_is_own_key (H := strict_host)
              (demo (Some "") [("styles.css", Str "a {}"); ("0", Str "zero")]))
    as (f & text & Hf & Hown & _).
  - right. reflexivity.
  - discriminate.
  - exists f, text. split; assumption.
Defined.

Lemma fallback_file_is_least_index_witness :
  exists f m text,
    Demoboard_filename
      (demo None [("b.js", Str "B"); ("10", Str "ten"); ("2", Str "two")])
    = Str f /\
    array_index f = Some m /\
    (m <= 10)%N /\
    own_property [("b.js", Str "B"); ("10", Str "ten"); ("2", Str "two")] f
    = Some text.
Proof.
  destruct (fallback_file_is_least_index (H := strict_host)
              (demo None [("b.js", Str "B"); ("10", Str "ten"); ("2", Str "two")])
              "10" 10%N)
    as (f & m & text & Hf & _ & Hidx & Hle & Hown & _).
  - left. reflexivity.
  - simpl. right. left. reflexivity.
  - reflexivity.
  - exists f, m, text. repeat split; assumption.
Defined.

Lemma editorPathname_ignores_order_witness :
  Demoboard (H := strict_host)
    (demo (Some "b.js") [("a.js", Str "A"); ("b.js", Str "B")])
  = Demoboard (H := strict_host)
      (demo (Some "b.js") [("b.js", Str "B"); ("a.js", Str "A")]).
Proof.
  apply (editorPathname_ignores_order (H := strict_host)
           (demo (Some "b.js") [("a.js", Str "A"); ("b.js", Str "B")])
           (demo (Some "b.js") [("b.js", Str "B"); ("a.js", Str "A")])
           "b.js");
    try reflexivity.
  - discriminate.
  - simpl. constructor.
    + intros [Heq|[]]. discriminate.
    + constructor; [intros []|constructor].
  - simpl. apply perm_swap.
Defined.

(** ** The two renderers side by side, and the bundle *)

Section Renderers.

Context {H : Host}.

(** X9.  For a language other than [undefined] the two renderers emit the
    same [pre] gutter: same class, same [code] element, same [id] and
    [style].  They part on [undefined]: [Demoboard] writes the class
    [language-undefined] where [code] writes [language-text]. *)
Theorem renderers_share_pre_gutter
    (p : DemoboardProps.t) (language html : value) :
  language <> Undefined ->
  (exists gutter,
     pre_gutter 2 (Demoboard_view p language html) = Some gutter /\
     pre_gutter 1
       (code {| CodeProps.highlightedSource := html;
                CodeProps.language := language;
                CodeProps.id := DemoboardProps.id p;
                CodeProps.style := DemoboardProps.style p |})
     = Some gutter) /\
  pre_className 2 (Demoboard_view p Undefined html)
  = Some (Str "language-undefined") /\
  pre_className 1
    (code {| CodeProps.highlightedSource := html;
             CodeProps.language := Undefined;
             CodeProps.id := DemoboardProps.id p;
             CodeProps.style := DemoboardProps.style p |})
  = Some (Str "language-text").
Proof.
  intros Hdef. split; [|split; reflexivity].
  eexists. split; [reflexivity|].
  destruct language; first [contradiction | reflexivity].
Qed.

(** X10.  With the bundle [demoboardHelpers] for [sources], whatever the
    six files hold: the keys come in the order written, so the file shown
    without [editorPathname] is [helpers.js]; and for each key given as
    [editorPathname] the language and the grammar identifier are both
    defined ([jsx] and [javascript], or [css] and [css]) and the text
    handed to the highlighter is the bundled one. *)
Theorem demoboardHelpers_files_resolve
    (helpers index routes withLink withRedirects styles : value)
    (p : DemoboardProps.t) (k : string) :
  let bundle :=
    demoboardHelpers helpers index routes withLink withRedirects styles in
  DemoboardProps.sources p = bundle ->
  In k (Object_keys bundle) ->
  Object_keys bundle
  = [ "helpers.js"; "index.js"; "routes.js"; "resourceRoutesWithLink.js";
      "resourceRoutesWithRedirects.js"; "styles.css" ] /\
  (DemoboardProps.editorPathname p = None ->
     Demoboard_filename p = Str "helpers.js") /\
  (DemoboardProps.editorPathname p = Some k ->
     exists text language grammar,
       own_property bundle k = Some text /\
       Demoboard_resolve (Str k) = Normal (Str language, Str grammar) /\
       (language = "jsx" /\ grammar = "javascript" \/
        language = "css" /\ grammar = "css") /\
       Demoboard p =
         (html <- Prism_highlight text (get Prism_languages grammar)
                    (Str language) ;;
          Normal (Demoboard_view p (Str language) html))).
Proof.
  intros bundle Hsrc Hin. split; [reflexivity|split].
  - intros Hed. unfold Demoboard_filename. rewrite Hed, Hsrc. reflexivity.
  - intros Hed.
    assert (Hrun : forall f, f <> "" -> k = f ->
              Demoboard p =
                (let language := Demoboard_language (Str (last_segment f)) in
                 html <- Prism_highlight (get bundle f)
                           (get Prism_languages
                              (to_string (Demoboard_grammar language)))
                           language ;;
                 Normal (Demoboard_view p language html))).
    { intros f Hne ->. rewrite <- Hsrc. apply Demoboard_string_filename.
      unfold Demoboard_filename. rewrite Hed. apply or_else_nonempty, Hne. }
    change (In k [ "helpers.js"; "index.js"; "routes.js";
                   "resourceRoutesWithLink.js";
                   "resourceRoutesWithRedirects.js"; "styles.css" ]) in Hin.
    simpl in Hin.
    destruct Hin as [E|[E|[E|[E|[E|[E|[]]]]]]];
      subst k;
      match type of Hed with
      | _ = Some ?f => rewrite (Hrun f) by first [discriminate | reflexivity]
      end;
      [ exists helpers, "jsx", "javascript"
      | exists index, "jsx", "javascript"
      | exists routes, "jsx", "javascript"
      | exists withLink, "jsx", "javascript"
      | exists withRedirects, "jsx", "javascript"
      | exists styles, "css", "css" ];
      (split; [reflexivity|]); (split; [reflexivity|]);
      (split; [first [left; split; reflexivity | right; split; reflexivity]|]);
      reflexivity.
Qed.

End Renderers.

Lemma renderers_share_pre_gutter_witness :
  exists gutter,
    pre_gutter 2
      (Demoboard_view (H := strict_host) (demo None []) (Str "css") (Str "a {}"))
    = Some gutter /\
    pre_gutter 1
      (code (H := strict_host)
         {| CodeProps.highlightedSource := Str "a {}";
            CodeProps.language := Str "css";
            CodeProps.id := Undefined;
            CodeProps.style := Undefined |})
    = Some gutter.
Proof.
  apply (renderers_share_pre_gutter (H := strict_host) (demo None [])
           (Str "css") (Str "a {}")).
  discriminate.
Defined.

Lemma demoboardHelpers_files_resolve_witness :
  Demoboard_filename
    (demo None
       (demoboardHelpers (Str "h") (Str "i") (Str "r") (Str "l") (Str "d")
          (Str "s")))
  = Str "helpers.js".
Proof.
  apply (demoboardHelpers_files_resolve (H := strict_host)
           (Str "h") (Str "i") (Str "r") (Str "l") (Str "d") (Str "s")
           (demo None
              (demoboardHelpers (Str "h") (Str "i") (Str "r") (Str "l")
                 (Str "d") (Str "s")))
           "styles.css").
  - reflexivity.
  - vm_compute. do 5 right. left. reflexivity.
  - reflexivity.
Defined.

Section Inherited_extension.

Context {H : Host}.

(** X11.  No key of the extension table is a name of [Object.prototype],
    so for a file whose extension is such a name the language is the
    inherited value: it is not [undefined], it is not a label, and it is
    what the highlighter receives as the language. *)
Theorem inherited_extension_language (p : DemoboardProps.t) (f : string) :
  Demoboard_filename p = Str f ->
  inherited_name (last_segment f) = true ->
  own_property languages (last_segment f) = None /\
  Demoboard_language (Str (last_segment f)) = Inherited (last_segment f) /\
  to_boolean (Demoboard_language (Str (last_segment f))) = true /\
  Demoboard p =
    (html <- Prism_highlight (get (DemoboardProps.sources p) f)
               (get Prism_languages
                  (to_string (Demoboard_grammar (Inherited (last_segment f)))))
               (Inherited (last_segment f)) ;;
     Normal (Demoboard_view p (Inherited (last_segment f)) html)).
Proof.
  intros Hf Hinh.
  remember (last_segment f) as e eqn:He.
  assert (Hown : own_property languages e = None).
  { unfold languages. cbn [own_property].
    destruct (String.eqb_spec "jsx" e) as [<-|_]; [discriminate Hinh|].
    destruct (String.eqb_spec "js" e) as [<-|_]; [discriminate Hinh|].
    destruct (String.eqb_spec "html" e) as [<-|_]; [discriminate Hinh|].
    destruct (String.eqb_spec "css" e) as [<-|_]; [discriminate Hinh|].
    reflexivity. }
  assert (Hlang : Demoboard_language (Str e) = Inherited e).
  { unfold Demoboard_language, get. cbn [to_string].
    rewrite Hown, Hinh. reflexivity. }
  split; [exact Hown|split; [exact Hlang|split]].
  - rewrite Hlang. reflexivity.
  - rewrite (Demoboard_string_filename p f Hf). cbv zeta.
    rewrite <- He, Hlang. reflexivity.
Qed.

End Inherited_extension.

Lemma inherited_extension_language_witness :
  Demoboard_language (H := strict_host) (Str (last_segment "notes.toString"))
  = Inherited (last_segment "notes.toString").
Proof.
  apply (inherited_extension_language (H := strict_host)
           (demo (Some "notes.toString") [("notes.toString", Str "x")])
           "notes.toString");
    reflexivity.
Defined.
